(** * KstApp: [generate_icons.py]

    A shallow embedding of the icon generator script and the properties its
    specification states about it.

    The script is a single Python module.  It binds three global names
    ([os] by its only import, [create_icon] and [main] by their [def]s) and
    its function bodies refer to three more ([Image], [ImageDraw],
    [ImageFont]) that nothing in the module binds.  Name resolution is
    therefore part of the model: function bodies look their free names up in
    a namespace, the way the interpreter does at run time.

    The imaging library the body is written against is not part of the
    repository; it is taken as a parameter (record [PIL]). *)

From Stdlib Require Import QArith Qabs Ascii.
From Stdlib Require PrimFloat FloatOps SpecFloat Uint63.
From stdpp Require Import gmap strings list pretty.
Close Scope Q_scope.
Open Scope Z_scope.

(** ** Python values, exceptions and outcomes *)

(** The objects a module-level name of this script can be bound to. *)
Inductive pyobj :=
| Module (name : string)
| Function (name : string)
| Builtin (name : string)
| Str (s : string).

Inductive exn :=
| NameError (name : string)
| AttributeError (attr : string)
| TypeError (what : string)
| FileExistsError (path : string)
| FileNotFoundError (path : string)
| IsADirectoryError (path : string)
| NotADirectoryError (path : string)
| LibraryError (msg : string).

(** [NameError], [AttributeError] and [TypeError] are not [OSError]s; the
    four file errors are its subclasses. *)
Definition is_OSError (e : exn) : bool :=
  match e with
  | FileExistsError _ | FileNotFoundError _
  | IsADirectoryError _ | NotADirectoryError _ => true
  | _ => false
  end.

Definition is_FileExistsError (e : exn) : bool :=
  match e with FileExistsError _ => true | _ => false end.

Inductive result (A : Type) :=
| Ok (a : A)
| Raise (e : exn).
Arguments Ok {A} a.
Arguments Raise {A} e.

Definition result_map {A B} (f : A → B) (r : result A) : result B :=
  match r with Ok a => Ok (f a) | Raise e => Raise e end.

Definition is_Ok {A} (r : result A) : bool :=
  match r with Ok _ => true | Raise _ => false end.

(** ** The imaging library interface

    [canvas] stands for an [Image] object together with the [ImageDraw]
    bound to it: [ImageDraw.Draw(img)] aliases [img], every drawing call
    mutates that one object, and the object is local to a [create_icon]
    call, so the model threads one canvas value through the calls.  Every
    operation may raise. *)

Definition color : Type := Z * Z * Z * Z.
Definition point : Type := Z * Z.
Definition box : Type := Z * Z * Z * Z.

Record PIL := {
  canvas : Type;
  font : Type;
  fontenv : Type;
  Image_new : string → Z * Z → color → result canvas;
  rounded_rectangle : canvas → box → Z → color → result canvas;
  polygon : canvas → list point → color → result canvas;
  truetype : fontenv → string → Z → result font;
  load_default : fontenv → result font;
  textbbox : canvas → point → string → font → result box;
  text : canvas → point → string → color → font → result canvas;
  png_encode : canvas → list Byte.byte
}.

(** ** The world a run acts on *)

#[global] Instance byte_eq_dec : EqDecision Byte.byte := Byte.byte_eq_dec.

Record world (F : Type) := World {
  dirs : gset string;
  files : gmap string (list Byte.byte);
  stdout : list string;
  fonts : F
}.
Arguments World {F} _ _ _ _.
Arguments dirs {F} _.
Arguments files {F} _.
Arguments stdout {F} _.
Arguments fonts {F} _.

(** ** Arithmetic of the geometry

    [scale = size / 1024.0] and the products [k * scale] are binary64
    values in the script.  [measure] below is the exact value: the
    truncation of the rational [k * size / 1024].  The binary64 computation
    itself is [float_measure]; the two agree on every size from 0 to 2048
    and every reference value of the design ([float_measure_table]), and
    they differ on very large sizes, where the conversion of [size] and the
    product are rounded.  Statements that need the exact value are
    therefore made for sizes up to 2048 and carry the agreement with
    [float_measure].  [int] truncates toward zero. *)

Definition scale (size : Z) : Q := (inject_Z size / 1024)%Q.

Definition int (q : Q) : Z := Z.quot (Qnum q) (Zpos (Qden q)).

(** [int(k * scale)], the form every measurement of the design takes. *)
Definition measure (k size : Z) : Z := int (inject_Z k * scale size)%Q.

Definition corner_radius size := measure 180 size.

Definition bubble1_x size := measure 200 size.
Definition bubble1_y size := measure 300 size.
Definition bubble1_w size := measure 280 size.
Definition bubble1_h size := measure 200 size.
Definition bubble1_r size := measure 20 size.

Definition tail_points size : list point :=
  [ (bubble1_x size, bubble1_y size + measure 100 size);
    (bubble1_x size - measure 50 size, bubble1_y size + measure 150 size);
    (bubble1_x size, bubble1_y size + measure 200 size) ].

Definition bubble2_x size := measure 544 size.
Definition bubble2_y size := measure 200 size.
Definition bubble2_w size := measure 280 size.
Definition bubble2_h size := measure 200 size.
Definition bubble2_r size := measure 20 size.

Definition tail2_points size : list point :=
  [ (bubble2_x size + bubble2_w size, bubble2_y size + measure 100 size);
    (bubble2_x size + bubble2_w size + measure 50 size,
     bubble2_y size + measure 50 size);
    (bubble2_x size + bubble2_w size, bubble2_y size) ].

Definition bubble3_x size := measure 150 size.
Definition bubble3_y size := measure 600 size.
Definition bubble3_w size := measure 200 size.
Definition bubble3_h size := measure 150 size.
Definition bubble3_r size := measure 15 size.

Definition tail3_points size : list point :=
  [ (bubble3_x size, bubble3_y size + measure 75 size);
    (bubble3_x size - measure 50 size, bubble3_y size + measure 125 size);
    (bubble3_x size, bubble3_y size + measure 175 size) ].

(** The same measurement computed in binary64, as the interpreter does:
    the integers are converted to floats, divided and multiplied there, and
    [int] drops the fractional part of the result. *)
Definition float_of_Z (z : Z) : PrimFloat.float :=
  PrimFloat.of_uint63 (Uint63.of_Z z).

Definition int_of_float (f : PrimFloat.float) : option Z :=
  match FloatOps.Prim2SF f with
  | SpecFloat.S754_zero _ => Some 0
  | SpecFloat.S754_finite s m e =>
      let v := if 0 <=? e then Zpos m * 2 ^ e else Zpos m `div` 2 ^ (- e) in
      Some (if s then - v else v)
  | _ => None
  end.

Definition float_measure (k size : Z) : option Z :=
  int_of_float
    (PrimFloat.mul (float_of_Z k)
       (PrimFloat.div (float_of_Z size) (float_of_Z 1024))).

Definition black : color := (0, 0, 0, 255).
Definition green : color := (0, 200, 81, 255).
Definition white : color := (255, 255, 255, 255).

Definition font_size size := measure 180 size.

(** Lines 92-96: the anchor the label is drawn at, from the bounding box
    measured at the origin.  [//] is floor division. *)
Definition text_width (text_bbox : box) : Z :=
  let '(l, _, r, _) := text_bbox in r - l.
Definition text_height (text_bbox : box) : Z :=
  let '(_, t, _, b) := text_bbox in b - t.
Definition text_x (size : Z) (text_bbox : box) : Z :=
  (size - text_width text_bbox) `div` 2.
Definition text_y (size : Z) (text_bbox : box) : Z :=
  (size - text_height text_bbox) `div` 2 + measure 50 size.

(** ** Paths ([posixpath]) *)

Definition ends_with_slash (s : string) : bool :=
  match String.rev s with
  | String "/"%char _ => true
  | _ => false
  end.

Definition starts_with_slash (s : string) : bool :=
  match s with
  | String "/"%char _ => true
  | _ => false
  end.

(** [os.path.join(a, b)] *)
Definition path_join (a b : string) : string :=
  if starts_with_slash b then b
  else if bool_decide (a = "") || ends_with_slash a then a +:+ b
  else a +:+ "/" +:+ b.

(** [os.path.split] on a path without a trailing slash, the path given as
    its components: the head is the join of all but the last. *)
Fixpoint join_components (cs : list string) : string :=
  match cs with
  | [] => ""
  | [c] => c
  | c :: cs' => c +:+ "/" +:+ join_components cs'
  end.

Fixpoint split_go (acc : string) (s : string) : list string :=
  match s with
  | EmptyString => [String.rev acc]
  | String "/"%char s' => String.rev acc :: split_go "" s'
  | String c s' => split_go (String c acc) s'
  end.

Definition components (p : string) : list string := split_go "" p.

Definition dirname (p : string) : string :=
  join_components (removelast (components p)).

(** ** Computations: state passing with exceptions *)

Definition M (S A : Type) : Type := S → result A * S.

Definition ret {S A} (a : A) : M S A := λ w, (Ok a, w).

Definition raise {S A} (e : exn) : M S A := λ w, (Raise e, w).

Definition bind {S A B} (m : M S A) (k : A → M S B) : M S B :=
  λ w, match m w with
       | (Ok a, w') => k a w'
       | (Raise e, w') => (Raise e, w')
       end.

Definition lift {S A} (r : result A) : M S A := λ w, (r, w).

Definition get {S} : M S S := λ w, (Ok w, w).

Definition modify {S} (f : S → S) : M S unit := λ w, (Ok tt, f w).

(** [try: body / except ...: handler]; effects of the failed body stay. *)
Definition try_except {S A} (body : M S A) (handler : exn → M S A) : M S A :=
  λ w, match body w with
       | (Ok a, w') => (Ok a, w')
       | (Raise e, w') => handler e w'
       end.

Notation "'let*' x := c 'in' k" := (bind c (λ x, k))
  (at level 10, x name, c at level 100, k at level 200).

Notation "c1 >> c2" := (bind c1 (λ _, c2))
  (at level 100, c2 at level 200, right associativity).

Definition outcome {S A} (r : result A * S) : result A := fst r.
Definition final {S A} (r : result A * S) : S := snd r.

(** ** The file system and the console

    The file system is the set of directories and the map of regular files
    of the working directory.  The operations fail the way the directory
    layout makes them fail (a path that exists, a parent that is missing or
    is no directory, a directory where a file is to be written); refusals
    that depend on anything else (permissions, a full disk, an interrupted
    write) are outside the model, and a write is modelled as complete. *)

Section OS.
Context {F : Type}.
Abbreviation state := (world F).

Definition path_exists (p : string) (w : state) : bool :=
  bool_decide (p ∈ dirs w) || bool_decide (is_Some (files w !! p)).

Definition path_isdir (p : string) (w : state) : bool :=
  bool_decide (p ∈ dirs w).

(** The directory a relative one-component path lives in is the working
    directory, which exists; it is written [""] as [os.path.split] does. *)
Definition parent_error (p : string) (w : state) : option exn :=
  let head := dirname p in
  if bool_decide (head = "") then None
  else if path_isdir head w then None
  else if bool_decide (is_Some (files w !! head))
       then Some (NotADirectoryError p)
       else Some (FileNotFoundError p).

(** [os.mkdir(p)] *)
Definition mkdir (p : string) : M state unit :=
  let* w := get in
  if path_exists p w then raise (FileExistsError p)
  else match parent_error p w with
       | Some e => raise e
       | None => modify (λ w, World ({[p]} ∪ dirs w) (files w) (stdout w) (fonts w))
       end.

(** [os.makedirs(name, exist_ok=exist_ok)], on the components of [name]
    in reverse: create the missing head first, then the leaf, where an
    [OSError] of the leaf's [mkdir] is dropped when [exist_ok] is set and
    the leaf is a directory. *)
Fixpoint makedirs_rev (rcs : list string) (exist_ok : bool) : M state unit :=
  match rcs with
  | [] => raise (FileNotFoundError "")
  | tail :: rhead =>
      let name := join_components (rev rcs) in
      let head := join_components (rev rhead) in
      (let* w := get in
       if negb (bool_decide (head = "")) && negb (bool_decide (tail = ""))
          && negb (path_exists head w)
       then try_except (makedirs_rev rhead exist_ok)
              (λ e, if is_FileExistsError e then ret tt else raise e)
       else ret tt) >>
      try_except (mkdir name)
        (λ e, let* w := get in
              if is_OSError e && (negb exist_ok || negb (path_isdir name w))
              then raise e
              else if is_OSError e then ret tt else raise e)
  end.

Definition makedirs (name : string) (exist_ok : bool) : M state unit :=
  makedirs_rev (rev (components name)) exist_ok.

(** [open(path, "w+b")] followed by writing [data] and closing. *)
Definition write_file (path : string) (data : list Byte.byte) : M state unit :=
  let* w := get in
  if path_isdir path w then raise (IsADirectoryError path)
  else match parent_error path w with
       | Some e => raise e
       | None =>
           modify (λ w, World (dirs w) (<[path := data]> (files w))
                              (stdout w) (fonts w))
       end.

(** [print(line)] *)
Definition print (line : string) : M state unit :=
  modify (λ w, World (dirs w) (files w) (stdout w ++ [line]) (fonts w)).
End OS.

(** ** Name resolution *)

(** The built-in names the script uses; the built-in namespace binds none of
    [Image], [ImageDraw], [ImageFont]. *)
Definition builtins : gmap string pyobj :=
  {[ "int" := Builtin "int"; "print" := Builtin "print" ]}.

(** The module's global namespace once its top level has run: line 7 binds
    [os], lines 9 and 102 bind the two functions; the interpreter supplies
    [__name__]. *)
Definition module_globals : gmap string pyobj :=
  {[ "__name__" := Str "__main__";
     "os" := Module "os";
     "create_icon" := Function "create_icon";
     "main" := Function "main" ]}.

(** The namespace the module would have with the imaging library's three
    modules imported under the names the body uses. *)
Definition pil_globals : gmap string pyobj :=
  <[ "Image" := Module "PIL.Image" ]>
  (<[ "ImageDraw" := Module "PIL.ImageDraw" ]>
  (<[ "ImageFont" := Module "PIL.ImageFont" ]> module_globals)).

(** A global name is looked up in the globals, then in the built-ins. *)
Definition load_global {S} (g : gmap string pyobj) (name : string) : M S pyobj :=
  match g !! name with
  | Some o => ret o
  | None =>
      match builtins !! name with
      | Some o => ret o
      | None => raise (NameError name)
      end
  end.

Definition has_attr (o : pyobj) (attr : string) : bool :=
  match o with
  | Module m =>
      if bool_decide (m = "os") then bool_decide (attr ∈ ["makedirs"; "path"])
      else if bool_decide (m = "PIL.Image") then bool_decide (attr = "new")
      else if bool_decide (m = "PIL.ImageDraw") then bool_decide (attr = "Draw")
      else if bool_decide (m = "PIL.ImageFont")
           then bool_decide (attr ∈ ["truetype"; "load_default"])
      else false
  | _ => false
  end.

Definition getattr {S} (o : pyobj) (attr : string) : M S unit :=
  if has_attr o attr then ret tt else raise (AttributeError attr).

Definition callable {S} (o : pyobj) (name : string) : M S unit :=
  match o with
  | Function f => if bool_decide (f = name) then ret tt else raise (TypeError name)
  | _ => raise (TypeError name)
  end.

(** ** The script *)

Section Script.
Variable pil : PIL.
(** The namespace the function bodies resolve their global names in. *)
Variable g : gmap string pyobj.

Abbreviation state := (world (fontenv pil)).

Definition Arial : string := "/System/Library/Fonts/Arial.ttf".
Definition Helvetica : string := "/System/Library/Fonts/Helvetica.ttc".

(** [ImageFont.truetype(path, font_size)] *)
Definition ImageFont_truetype (path : string) (fs : Z) : M state (font pil) :=
  let* ImageFont := load_global g "ImageFont" in
  getattr ImageFont "truetype" >>
  let* w := get in
  lift (truetype pil (fonts w) path fs).

(** [ImageFont.load_default()] *)
Definition ImageFont_load_default : M state (font pil) :=
  let* ImageFont := load_global g "ImageFont" in
  getattr ImageFont "load_default" >>
  let* w := get in
  lift (load_default pil (fonts w)).

(** Lines 80-88.  Both handlers are bare [except:] clauses: they take
    every exception.  [font_size] is assigned before the first lookup of
    [ImageFont], so it is bound in the inner [try]. *)
Definition select_font (size : Z) : M state (font pil) :=
  try_except
    (ImageFont_truetype Arial (font_size size))
    (λ _, try_except
            (ImageFont_truetype Helvetica (font_size size))
            (λ _, ImageFont_load_default)).

(** Lines 9-100. *)
Definition create_icon (size : Z) : M state (canvas pil) :=
  let* Image := load_global g "Image" in
  getattr Image "new" >>
  let* img := lift (Image_new pil "RGBA" (size, size) (0, 0, 0, 255)) in
  let* ImageDraw := load_global g "ImageDraw" in
  getattr ImageDraw "Draw" >>
  let* img := lift (rounded_rectangle pil img (0, 0, size, size)
                      (corner_radius size) (0, 0, 0, 255)) in
  let* img := lift (rounded_rectangle pil img
                      (bubble1_x size, bubble1_y size,
                       bubble1_x size + bubble1_w size,
                       bubble1_y size + bubble1_h size)
                      (bubble1_r size) green) in
  let* img := lift (polygon pil img (tail_points size) green) in
  let* img := lift (rounded_rectangle pil img
                      (bubble2_x size, bubble2_y size,
                       bubble2_x size + bubble2_w size,
                       bubble2_y size + bubble2_h size)
                      (bubble2_r size) green) in
  let* img := lift (polygon pil img (tail2_points size) green) in
  let* img := lift (rounded_rectangle pil img
                      (bubble3_x size, bubble3_y size,
                       bubble3_x size + bubble3_w size,
                       bubble3_y size + bubble3_h size)
                      (bubble3_r size) green) in
  let* img := lift (polygon pil img (tail3_points size) green) in
  let* font := select_font size in
  let* text_bbox := lift (textbbox pil img (0, 0) "KST" font) in
  let* img := lift (text pil img (text_x size text_bbox, text_y size text_bbox)
                      "KST" (255, 255, 255, 255) font) in
  ret img.

(** Lines 104-114. *)
Definition sizes : list (Z * string) :=
  [ (40, "icon-20@2x.png");
    (60, "icon-20@3x.png");
    (58, "icon-29@2x.png");
    (87, "icon-29@3x.png");
    (80, "icon-40@2x.png");
    (120, "icon-40@3x.png");
    (120, "icon-60@2x.png");
    (180, "icon-60@3x.png");
    (1024, "icon-1024.png") ].

Definition output_dir : string := "Assets.xcassets/AppIcon.appiconset".

(** [img.save(path, "PNG")] *)
Definition save (img : canvas pil) (path : string) : M state unit :=
  write_file path (png_encode pil img).

(** Lines 120-123: the body of the loop for one entry.  [print] (and
    [int] in the measurements) are taken as the built-ins: the module does
    not shadow them. *)
Definition process_entry (entry : Z * string) : M state unit :=
  let '(size, filename) := entry in
  print ("Generating " +:+ filename +:+ " (" +:+ pretty size +:+ "x"
           +:+ pretty size +:+ ")...") >>
  let* f := load_global g "create_icon" in
  callable f "create_icon" >>
  let* img := create_icon size in
  let* os := load_global g "os" in
  getattr os "path" >>
  save img (path_join output_dir filename) >>
  print ("Saved " +:+ filename).

(** [for size, filename in entries: ...] *)
Fixpoint for_entries (entries : list (Z * string)) : M state unit :=
  match entries with
  | [] => ret tt
  | entry :: rest => process_entry entry >> for_entries rest
  end.

(** Lines 102-123. *)
Definition main : M state unit :=
  let* os := load_global g "os" in
  getattr os "makedirs" >>
  makedirs output_dir true >>
  for_entries sizes.
End Script.

(** ** A display-list instance of the library interface

    An executable stand-in for the imaging library: a canvas is the list of
    the drawing calls made on it.  It is what the concrete runs below are
    evaluated with; no general statement depends on it. *)

Module DisplayList.

Inductive face :=
| TrueType (path : string) (size : Z)
| DefaultFace.

Inductive draw_op :=
| RoundedRectangle (xy : box) (radius : Z) (fill : color)
| Polygon (pts : list point) (fill : color)
| Text (xy : point) (s : string) (fill : color) (f : face).

Record display := Display {
  mode : string;
  width : Z;
  height : Z;
  background : color;
  ops : list draw_op
}.

Definition draw (d : display) (op : draw_op) : display :=
  Display (mode d) (width d) (height d) (background d) (ops d ++ [op]).

Definition dl_new (m : string) (wh : Z * Z) (fill : color) : result display :=
  let '(w, h) := wh in
  if bool_decide (w < 0) || bool_decide (h < 0)
  then Raise (LibraryError "Width and height must be >= 0")
  else Ok (Display m w h fill []).

Definition dl_rounded_rectangle (d : display) (xy : box) (radius : Z)
    (fill : color) : result display :=
  let '(x0, y0, x1, y1) := xy in
  if bool_decide (x1 < x0) || bool_decide (y1 < y0)
  then Raise (LibraryError "x1 must be greater than or equal to x0")
  else Ok (draw d (RoundedRectangle xy radius fill)).

Definition dl_polygon (d : display) (pts : list point) (fill : color)
    : result display :=
  Ok (draw d (Polygon pts fill)).

(** The font environment: the font files that can be opened. *)
Definition dl_truetype (env : gset string) (path : string) (size : Z)
    : result face :=
  if bool_decide (size ≤ 0)
  then Raise (LibraryError "font size must be greater than 0")
  else if bool_decide (path ∈ env) then Ok (TrueType path size)
  else Raise (LibraryError "cannot open resource").

Definition dl_load_default (env : gset string) : result face := Ok DefaultFace.

Definition bbox_at_origin (s : string) (f : face) : box :=
  let n := Z.of_nat (String.length s) in
  match f with
  | TrueType _ size => (size `div` 10, size `div` 4,
                        size `div` 10 + n * (6 * size `div` 10), size)
  | DefaultFace => (0, 0, 6 * n, 11)
  end.

Definition dl_textbbox (d : display) (xy : point) (s : string) (f : face)
    : result box :=
  let '(x, y) := xy in
  let '(l, t, r, b) := bbox_at_origin s f in
  Ok (x + l, y + t, x + r, y + b).

Definition dl_text (d : display) (xy : point) (s : string) (fill : color)
    (f : face) : result display :=
  Ok (draw d (Text xy s fill f)).

Definition bytes_of_Z (z : Z) : list Byte.byte :=
  String.list_byte_of_string (pretty z +:+ ",").

Definition bytes_of_color (c : color) : list Byte.byte :=
  let '(r, g, b, a) := c in
  bytes_of_Z r ++ bytes_of_Z g ++ bytes_of_Z b ++ bytes_of_Z a.

Definition bytes_of_face (f : face) : list Byte.byte :=
  match f with
  | TrueType path size => String.list_byte_of_string path ++ bytes_of_Z size
  | DefaultFace => String.list_byte_of_string "default,"
  end.

Definition bytes_of_op (op : draw_op) : list Byte.byte :=
  match op with
  | RoundedRectangle (x0, y0, x1, y1) radius fill =>
      String.list_byte_of_string "R" ++ bytes_of_Z x0 ++ bytes_of_Z y0
        ++ bytes_of_Z x1 ++ bytes_of_Z y1 ++ bytes_of_Z radius
        ++ bytes_of_color fill
  | Polygon pts fill =>
      String.list_byte_of_string "P"
        ++ concat (map (λ p, bytes_of_Z (fst p) ++ bytes_of_Z (snd p)) pts)
        ++ bytes_of_color fill
  | Text (x, y) s fill f =>
      String.list_byte_of_string "T" ++ bytes_of_Z x ++ bytes_of_Z y
        ++ String.list_byte_of_string s ++ bytes_of_color fill
        ++ bytes_of_face f
  end.

(** The face of the last drawing call, when that call draws text. *)
Definition label_face (d : display) : option face :=
  match last (ops d) with
  | Some (Text _ _ _ f) => Some f
  | _ => None
  end.

Definition encode (d : display) : list Byte.byte :=
  String.list_byte_of_string (mode d) ++ bytes_of_Z (width d)
    ++ bytes_of_Z (height d) ++ bytes_of_color (background d)
    ++ concat (map bytes_of_op (ops d)).

Definition lib : PIL :=
  {| canvas := display;
     font := face;
     fontenv := gset string;
     Image_new := dl_new;
     rounded_rectangle := dl_rounded_rectangle;
     polygon := dl_polygon;
     truetype := dl_truetype;
     load_default := dl_load_default;
     textbbox := dl_textbbox;
     text := dl_text;
     png_encode := encode |}.

End DisplayList.

(** ** Concrete worlds *)

(** Nothing on disk, nothing printed, no font file present. *)
Definition empty_world : world (gset string) := World ∅ ∅ [] ∅.

Definition icon_path (filename : string) : string :=
  path_join output_dir filename.


(** The output directory holds two older files of different content under
    the names of the two entries of size 120. *)
Definition stale_a : list Byte.byte := String.list_byte_of_string "old-a".
Definition stale_b : list Byte.byte := String.list_byte_of_string "old-b".

Definition stale_world {F} (fe : F) : world F :=
  World {[ "Assets.xcassets"; output_dir ]}
        {[ icon_path "icon-40@3x.png" := stale_a;
           icon_path "icon-60@2x.png" := stale_b ]} [] fe.


(** ** The statements of the specification that are compared with the code *)

(** The label's box as drawn: the box measured at the origin, moved to the
    anchor the script computes. *)
Definition drawn_bbox (size : Z) (text_bbox : box) : box :=
  let '(l, t, r, b) := text_bbox in
  (text_x size text_bbox + l, text_y size text_bbox + t,
   text_x size text_bbox + r, text_y size text_bbox + b).



(** "every linear measurement in the s2 render equals the corresponding s1
    measurement multiplied by s2/s1, within integer-rounding tolerance", the
    tolerance read as one pixel. *)
Definition scaling_spec (k s1 s2 : Z) : Prop :=
  (Qabs (inject_Z (measure k s2)
         - inject_Z (measure k s1) * (inject_Z s2 / inject_Z s1)) <= 1)%Q.

(** The reference values the measurements of lines 16-77 are taken from. *)
Definition reference_values : list Z :=
  [180; 200; 300; 280; 20; 100; 150; 50; 544; 600; 15; 75; 125; 175].

(** What a run shows of one entry: the content of its file and whether its
    progress line was printed. *)
Definition progress_line (entry : Z * string) : string :=
  "Generating " +:+ snd entry +:+ " (" +:+ pretty (fst entry) +:+ "x"
    +:+ pretty (fst entry) +:+ ")...".



(** The names a namespace binds to modules: what the module imported. *)
Definition imported_names (g : gmap string pyobj) : list string :=
  omap (λ kv, match snd kv with Module _ => Some (fst kv) | _ => None end)
       (map_to_list g).

(** A computation that leaves every file as it was. *)
Definition keeps_files {F A} (m : M (world F) A) : Prop :=
  ∀ w, files (final (m w)) = files w.

(** A computation that changes nothing and whose outcome depends on the
    world through the font environment only. *)
Definition fonts_only {F A} (m : M (world F) A) : Prop :=
  (∀ w, final (m w) = w)
  ∧ (∀ w1 w2, fonts w1 = fonts w2 → outcome (m w1) = outcome (m w2)).

(** The paths of the files a run may write. *)
Definition icon_paths : list string :=
  map (λ entry, icon_path (snd entry)) sizes.

(** [w'] differs from [w] at most by directories among [newdirs] added,
    files among [paths] written and lines printed. *)
Definition changes_within {F} (paths newdirs : list string) (w w' : world F)
    : Prop :=
  dirs w ⊆ dirs w'
  ∧ (∀ d, d ∈ dirs w' → d ∈ dirs w ∨ d ∈ newdirs)
  ∧ (∀ p, p ∉ paths → files w' !! p = files w !! p)
  ∧ stdout w `prefix_of` stdout w'
  ∧ fonts w' = fonts w.

Definition stays_within {F A} (paths newdirs : list string)
    (m : M (world F) A) : Prop :=
  ∀ w, changes_within paths newdirs w (final (m w)).

(** * Facts *)

(** ** Arithmetic of the measurements *)

Lemma measure_quot (k size : Z) : measure k size = Z.quot (k * size) 1024.
Proof.
  unfold measure, int, scale, Qdiv, Qmult, Qinv, inject_Z. simpl.
  f_equal; lia.
Qed.

Lemma measure_floor (k size : Z) :
  0 ≤ k → 0 ≤ size → measure k size = (k * size) `div` 1024.
Proof.
  intros Hk Hs. rewrite measure_quot. apply Z.quot_div_nonneg; lia.
Qed.

Lemma measure_bounds (k size : Z) :
  0 ≤ k → 0 ≤ size →
  1024 * measure k size ≤ k * size < 1024 * (measure k size + 1).
Proof.
  intros Hk Hs. rewrite measure_floor by lia.
  pose proof (Z.div_mod (k * size) 1024).
  pose proof (Z.mod_pos_bound (k * size) 1024). lia.
Qed.

(** On every size of the table and every reference value of the design,
    the binary64 computation and the rational one agree. *)
Lemma measure_agrees_with_binary64 :
  forallb (λ size,
             forallb (λ k, bool_decide (float_measure k size
                                        = Some (measure k size)))
                     reference_values)
          (map fst sizes) = true.
Proof. vm_compute. reflexivity. Qed.

(** On every size from 0 to 2048 and every reference value, the binary64
    computation gives the exact truncation. *)
Lemma float_measure_table :
  forallb (λ size,
             forallb (λ k, bool_decide (float_measure k size
                                        = Some (Z.quot (k * size) 1024)))
                     reference_values)
          (seqZ 0 2049) = true.
Proof. vm_compute. reflexivity. Qed.

Lemma float_measure_reference (k size : Z) :
  k ∈ reference_values → 0 ≤ size ≤ 2048 →
  float_measure k size = Some (measure k size).
Proof.
  intros Hk Hs. rewrite measure_quot.
  pose proof float_measure_table as H. rewrite forallb_forall in H.
  assert (In size (seqZ 0 2049)) as Hin
    by (apply list_elem_of_In, elem_of_seqZ; lia).
  specialize (H size Hin). rewrite forallb_forall in H.
  apply list_elem_of_In in Hk. specialize (H k Hk).
  by apply bool_decide_eq_true in H.
Qed.

Lemma reference_values_bounds (k : Z) : k ∈ reference_values → 15 ≤ k ≤ 600.
Proof.
  intros Hk.
  assert (Forall (λ k, 15 ≤ k ≤ 600) reference_values) as H
    by (repeat (apply Forall_cons; split; [lia|]); apply Forall_nil_2).
  rewrite Forall_forall in H. by apply H.
Qed.

(** ** Sequencing *)

Lemma bind_Ok {S A B} (m : M S A) (k : A → M S B) (w w' : S) (a : A) :
  m w = (Ok a, w') → bind m k w = k a w'.
Proof. intros H. unfold bind. by rewrite H. Qed.

Lemma bind_Raise {S A B} (m : M S A) (k : A → M S B) (w w' : S) (e : exn) :
  m w = (Raise e, w') → bind m k w = (Raise e, w').
Proof. intros H. unfold bind. by rewrite H. Qed.

(** ** Name resolution in the module's namespace *)

Lemma builtins_no_imaging :
  builtins !! "Image" = None ∧ builtins !! "ImageDraw" = None
  ∧ builtins !! "ImageFont" = None.
Proof. by vm_compute. Qed.

Lemma module_globals_no_imaging :
  module_globals !! "Image" = None ∧ module_globals !! "ImageDraw" = None
  ∧ module_globals !! "ImageFont" = None.
Proof. by vm_compute. Qed.

Lemma load_global_unbound {S} (g : gmap string pyobj) (name : string) (w : S) :
  g !! name = None → builtins !! name = None →
  load_global g name w = (Raise (NameError name), w).
Proof. intros Hg Hb. unfold load_global. by rewrite Hg, Hb. Qed.

Section ModuleNamespace.
Variable pil : PIL.
Implicit Types w : world (fontenv pil).

Lemma create_icon_unbound (g : gmap string pyobj) (size : Z) w :
  g !! "Image" = None →
  create_icon pil g size w = (Raise (NameError "Image"), w).
Proof.
  intros Hg. unfold create_icon, bind.
  rewrite load_global_unbound; [done | done | apply builtins_no_imaging].
Qed.

Lemma create_icon_module (size : Z) w :
  create_icon pil module_globals size w = (Raise (NameError "Image"), w).
Proof. apply create_icon_unbound, module_globals_no_imaging. Qed.

Lemma ImageFont_truetype_module (path : string) (fs : Z) w :
  ImageFont_truetype pil module_globals path fs w
  = (Raise (NameError "ImageFont"), w).
Proof.
  unfold ImageFont_truetype, bind.
  rewrite load_global_unbound;
    [done | apply module_globals_no_imaging | apply builtins_no_imaging].
Qed.

Lemma ImageFont_load_default_module w :
  ImageFont_load_default pil module_globals w
  = (Raise (NameError "ImageFont"), w).
Proof.
  unfold ImageFont_load_default, bind.
  rewrite load_global_unbound;
    [done | apply module_globals_no_imaging | apply builtins_no_imaging].
Qed.

(** One entry in the module's namespace: the progress line, then the
    [NameError] of the renderer. *)
Lemma process_entry_module (entry : Z * string) w :
  process_entry pil module_globals entry w
  = (Raise (NameError "Image"),
     World (dirs w) (files w) (stdout w ++ [progress_line entry]) (fonts w)).
Proof.
  destruct entry as [size filename].
  unfold process_entry.
  erewrite bind_Ok by (unfold print, modify; reflexivity).
  erewrite bind_Ok by reflexivity.
  erewrite bind_Ok by reflexivity.
  erewrite bind_Raise by apply create_icon_module.
  reflexivity.
Qed.

Lemma for_entries_module (entry : Z * string) (rest : list (Z * string)) w :
  for_entries pil module_globals (entry :: rest) w
  = (Raise (NameError "Image"),
     World (dirs w) (files w) (stdout w ++ [progress_line entry]) (fonts w)).
Proof. cbn [for_entries]. unfold bind. by rewrite process_entry_module. Qed.
End ModuleNamespace.

(** ** Computations that write no file *)

Section KeepsFiles.
Context {F : Type}.
Implicit Types w : world F.

Lemma keeps_files_ret {A} (a : A) : @keeps_files F A (ret a).
Proof. by intros w. Qed.

Lemma keeps_files_raise {A} (e : exn) : @keeps_files F A (raise e).
Proof. by intros w. Qed.

Lemma keeps_files_get : @keeps_files F _ get.
Proof. by intros w. Qed.

Lemma keeps_files_bind {A B} (m : M (world F) A) (k : A → M (world F) B) :
  keeps_files m → (∀ a, keeps_files (k a)) → keeps_files (bind m k).
Proof.
  intros Hm Hk w. unfold bind. specialize (Hm w).
  destruct (m w) as [[a|e] w']; cbn in *; [|done].
  by rewrite Hk.
Qed.

Lemma keeps_files_try_except {A} (m : M (world F) A) (h : exn → M (world F) A) :
  keeps_files m → (∀ e, keeps_files (h e)) → keeps_files (try_except m h).
Proof.
  intros Hm Hh w. unfold try_except. specialize (Hm w).
  destruct (m w) as [[a|e] w']; cbn in *; [done|].
  by rewrite Hh.
Qed.

Lemma keeps_files_print (line : string) : keeps_files (@print F line).
Proof. by intros w. Qed.

Lemma keeps_files_mkdir (p : string) : keeps_files (@mkdir F p).
Proof.
  apply keeps_files_bind; [apply keeps_files_get|]. intros w0.
  destruct (path_exists p w0); [apply keeps_files_raise|].
  destruct (parent_error p w0); [apply keeps_files_raise|]. by intros w.
Qed.

Lemma keeps_files_makedirs_rev (rcs : list string) (exist_ok : bool) :
  keeps_files (@makedirs_rev F rcs exist_ok).
Proof.
  induction rcs as [|tail rhead IH]; [apply keeps_files_raise|].
  cbn [makedirs_rev]. apply keeps_files_bind.
  - apply keeps_files_bind; [apply keeps_files_get|]. intros w0.
    match goal with |- keeps_files (if ?c then _ else _) => destruct c end;
      [|apply keeps_files_ret].
    apply keeps_files_try_except; [apply IH|]. intros e.
    destruct (is_FileExistsError e);
      [apply keeps_files_ret | apply keeps_files_raise].
  - intros _. apply keeps_files_try_except; [apply keeps_files_mkdir|].
    intros e. apply keeps_files_bind; [apply keeps_files_get|]. intros w0.
    repeat match goal with
           | |- keeps_files (if ?c then _ else _) => destruct c
           end; (apply keeps_files_ret || apply keeps_files_raise).
Qed.

Lemma keeps_files_makedirs (name : string) (exist_ok : bool) :
  keeps_files (@makedirs F name exist_ok).
Proof. apply keeps_files_makedirs_rev. Qed.
End KeepsFiles.

Section ModuleRun.
Variable pil : PIL.
Implicit Types w : world (fontenv pil).

(** A run of [main] in the module's namespace: the directory step, then
    the first progress line and the renderer's [NameError]. *)
Lemma main_module w :
  main pil module_globals w
  = match makedirs output_dir true w with
    | (Ok _, w') =>
        (Raise (NameError "Image"),
         World (dirs w') (files w')
               (stdout w' ++ [progress_line (40, "icon-20@2x.png")])
               (fonts w'))
    | (Raise e, w') => (Raise e, w')
    end.
Proof.
  unfold main.
  erewrite bind_Ok by reflexivity.
  erewrite bind_Ok by reflexivity.
  unfold bind at 1.
  destruct (makedirs output_dir true w) as [[[]|e] w']; [|done].
  apply for_entries_module.
Qed.

Lemma main_module_files w :
  files (final (main pil module_globals w)) = files w.
Proof.
  rewrite main_module.
  pose proof (keeps_files_makedirs output_dir true w) as H.
  destruct (makedirs output_dir true w) as [[[]|e] w']; apply H.
Qed.

Lemma main_module_raises w :
  is_Ok (outcome (main pil module_globals w)) = false.
Proof.
  rewrite main_module.
  by destruct (makedirs output_dir true w) as [[[]|e] w'].
Qed.
End ModuleRun.

(** ** Computations that read the font environment only *)

Section FontsOnly.
Context {F : Type}.
Implicit Types w : world F.

Lemma fonts_only_ret {A} (a : A) : @fonts_only F A (ret a).
Proof. by split. Qed.

Lemma fonts_only_raise {A} (e : exn) : @fonts_only F A (raise e).
Proof. by split. Qed.

Lemma fonts_only_lift {A} (r : result A) : @fonts_only F A (lift r).
Proof. by split. Qed.

Lemma fonts_only_load_global (g : gmap string pyobj) (name : string) :
  @fonts_only F _ (load_global g name).
Proof.
  unfold load_global.
  destruct (g !! name); [apply fonts_only_ret|].
  destruct (builtins !! name); [apply fonts_only_ret | apply fonts_only_raise].
Qed.

Lemma fonts_only_getattr (o : pyobj) (attr : string) :
  @fonts_only F _ (getattr o attr).
Proof.
  unfold getattr.
  destruct (has_attr o attr); [apply fonts_only_ret | apply fonts_only_raise].
Qed.

Lemma fonts_only_with_fonts {A} (f : F → result A) :
  fonts_only (let* w := get in lift (f (fonts w))).
Proof. split; [done|]. intros w1 w2 H. unfold bind, get, lift. cbn. by rewrite H. Qed.

Lemma fonts_only_bind {A B} (m : M (world F) A) (k : A → M (world F) B) :
  fonts_only m → (∀ a, fonts_only (k a)) → fonts_only (bind m k).
Proof.
  intros [Hm1 Hm2] Hk. split.
  - intros w. unfold bind. specialize (Hm1 w).
    destruct (m w) as [[a|e] w']; cbn in *; [|done].
    subst w'. apply Hk.
  - intros w1 w2 H. unfold bind.
    pose proof (Hm1 w1) as E1. pose proof (Hm1 w2) as E2.
    specialize (Hm2 w1 w2 H).
    destruct (m w1) as [r1 w1'], (m w2) as [r2 w2']; cbn in *. subst.
    destruct r2 as [a|e]; [|done]. by apply Hk.
Qed.

Lemma fonts_only_try_except {A} (m : M (world F) A) (h : exn → M (world F) A) :
  fonts_only m → (∀ e, fonts_only (h e)) → fonts_only (try_except m h).
Proof.
  intros [Hm1 Hm2] Hh. split.
  - intros w. unfold try_except. specialize (Hm1 w).
    destruct (m w) as [[a|e] w']; cbn in *; [done|].
    subst w'. apply Hh.
  - intros w1 w2 H. unfold try_except.
    pose proof (Hm1 w1) as E1. pose proof (Hm1 w2) as E2.
    specialize (Hm2 w1 w2 H).
    destruct (m w1) as [r1 w1'], (m w2) as [r2 w2']; cbn in *. subst.
    destruct r2 as [a|e]; [done|]. by apply Hh.
Qed.
End FontsOnly.

Section Renderer.
Variable pil : PIL.
Variable g : gmap string pyobj.

Lemma fonts_only_truetype (path : string) (fs : Z) :
  fonts_only (ImageFont_truetype pil g path fs).
Proof.
  unfold ImageFont_truetype.
  apply fonts_only_bind; [apply fonts_only_load_global|]. intros o.
  apply fonts_only_bind; [apply fonts_only_getattr|]. intros _.
  apply (fonts_only_with_fonts (λ fe, truetype pil fe path fs)).
Qed.

Lemma fonts_only_load_default : fonts_only (ImageFont_load_default pil g).
Proof.
  unfold ImageFont_load_default.
  apply fonts_only_bind; [apply fonts_only_load_global|]. intros o.
  apply fonts_only_bind; [apply fonts_only_getattr|]. intros _.
  apply (fonts_only_with_fonts (λ fe, load_default pil fe)).
Qed.

Lemma fonts_only_select_font (size : Z) : fonts_only (select_font pil g size).
Proof.
  unfold select_font.
  apply fonts_only_try_except; [apply fonts_only_truetype|]. intros _.
  apply fonts_only_try_except; [apply fonts_only_truetype|]. intros _.
  apply fonts_only_load_default.
Qed.

Lemma fonts_only_create_icon (size : Z) : fonts_only (create_icon pil g size).
Proof.
  unfold create_icon.
  repeat first
    [ apply fonts_only_ret
    | apply fonts_only_lift
    | apply fonts_only_load_global
    | apply fonts_only_getattr
    | apply fonts_only_select_font
    | apply fonts_only_bind; [|intros ?] ].
Qed.
End Renderer.

(** ** The loop *)

Section Loop.
Variable pil : PIL.
Variable g : gmap string pyobj.
Implicit Types w : world (fontenv pil).

End Loop.

(** ** The imported namespace *)

Section Imported.
Variable pil : PIL.
Implicit Types w : world (fontenv pil).

Lemma ImageFont_truetype_imported (path : string) (fs : Z) w :
  ImageFont_truetype pil pil_globals path fs w
  = (truetype pil (fonts w) path fs, w).
Proof.
  unfold ImageFont_truetype.
  erewrite bind_Ok by reflexivity.
  erewrite bind_Ok by reflexivity.
  reflexivity.
Qed.

Lemma ImageFont_load_default_imported w :
  ImageFont_load_default pil pil_globals w = (load_default pil (fonts w), w).
Proof.
  unfold ImageFont_load_default.
  erewrite bind_Ok by reflexivity.
  erewrite bind_Ok by reflexivity.
  reflexivity.
Qed.

(** With [ImageFont] bound, the font block yields a font whenever the
    default face is available, whatever the two named attempts do. *)
Lemma select_font_imported_total (size : Z) w :
  is_Ok (load_default pil (fonts w)) = true →
  is_Ok (outcome (select_font pil pil_globals size w)) = true.
Proof.
  intros H. unfold select_font, try_except.
  rewrite !ImageFont_truetype_imported, ImageFont_load_default_imported.
  destruct (truetype pil (fonts w) Arial (font_size size)); [done|].
  by destruct (truetype pil (fonts w) Helvetica (font_size size)).
Qed.
End Imported.

(** * The claims *)

(** C1.  For every pixel size, a call of [create_icon] raises [NameError]
    (for the name [Image]), and a run of [main] therefore ends in an
    exception and writes no file: the module's only import is [os], and
    neither the module nor the built-ins bind [Image], [ImageDraw] or
    [ImageFont]. *)
Theorem create_icon_raises_NameError (pil : PIL) :
  imported_names module_globals = ["os"]
  ∧ (module_globals !! "Image" = None ∧ builtins !! "Image" = None)
  ∧ (module_globals !! "ImageDraw" = None ∧ builtins !! "ImageDraw" = None)
  ∧ (module_globals !! "ImageFont" = None ∧ builtins !! "ImageFont" = None)
  ∧ (∀ (size : Z) (w : world (fontenv pil)),
       create_icon pil module_globals size w = (Raise (NameError "Image"), w))
  ∧ (∀ w : world (fontenv pil),
       is_Ok (outcome (main pil module_globals w)) = false
       ∧ files (final (main pil module_globals w)) = files w).
Proof.
  split; [by vm_compute|].
  do 3 (split; [split; by vm_compute|]).
  split.
  - intros size w. apply create_icon_module.
  - intros w. split; [apply main_module_raises | apply main_module_files].
Qed.

(** C2 (the code departs from it).  In the module's namespace the call
    [create_icon(40)] returns no image; with the three imaging names bound
    the same body yields a 40 x 40 RGBA canvas filled with opaque black. *)
Theorem create_icon_40_returns_no_image :
  outcome (create_icon DisplayList.lib module_globals 40 empty_world)
  = Raise (NameError "Image")
  ∧ result_map
      (λ d, (DisplayList.mode d, DisplayList.width d, DisplayList.height d,
             DisplayList.background d))
      (outcome (create_icon DisplayList.lib pil_globals 40 empty_world))
    = Ok ("RGBA", 40, 40, (0, 0, 0, 255)).
Proof. split_and!; vm_compute; reflexivity. Qed.

(** C3 (the code departs from it).  A run of [main] from an empty working
    directory creates the output directory and its parent, announces the
    first entry, calls the renderer once and ends in its [NameError]: no
    file is written and the other eight entries are not reached. *)
Theorem main_stops_at_first_entry (pil : PIL) (fe : fontenv pil) :
  let r := main pil module_globals (World ∅ ∅ [] fe) in
  outcome r = Raise (NameError "Image")
  ∧ path_isdir "Assets.xcassets" (final r) = true
  ∧ path_isdir "Assets.xcassets/AppIcon.appiconset" (final r) = true
  ∧ size (dirs (final r)) = 2%nat
  ∧ map_to_list (files (final r)) = []
  ∧ stdout (final r) = ["Generating icon-20@2x.png (40x40)..."].
Proof. cbv zeta. split_and!; vm_compute; first [reflexivity | discriminate]. Qed.

(** C4 (the code departs from it).  In the module's namespace the call
    [create_icon(40)] ends at line 12 with the [NameError] for [Image]: the
    font block of lines 80-88 is not reached, no font of the list is tried
    and none is selected.  With the three imaging names bound the same body
    draws the label in Arial when its file can be opened, else in Helvetica,
    else in the default face, the named fonts at size
    [int(180 * 40 / 1024) = 7]. *)
Theorem create_icon_40_selects_no_font :
  create_icon DisplayList.lib module_globals 40 empty_world
  = (Raise (NameError "Image"), empty_world)
  ∧ result_map DisplayList.label_face
      (outcome (create_icon DisplayList.lib pil_globals 40
                  (World ∅ ∅ [] {[ Arial; Helvetica ]})))
    = Ok (Some (DisplayList.TrueType Arial 7))
  ∧ result_map DisplayList.label_face
      (outcome (create_icon DisplayList.lib pil_globals 40
                  (World ∅ ∅ [] {[ Helvetica ]})))
    = Ok (Some (DisplayList.TrueType Helvetica 7))
  ∧ result_map DisplayList.label_face
      (outcome (create_icon DisplayList.lib pil_globals 40 empty_world))
    = Ok (Some DisplayList.DefaultFace).
Proof. split_and!; vm_compute; reflexivity. Qed.

(** C9 (the code departs from it).  Two runs of [main] in succession from
    an empty working directory: both end in the [NameError], the output
    directory exists after them, and it holds no file at all. *)
Theorem main_twice_leaves_no_file (pil : PIL) (fe : fontenv pil) :
  let r1 := main pil module_globals (World ∅ ∅ [] fe) in
  let r2 := main pil module_globals (final r1) in
  outcome r1 = Raise (NameError "Image")
  ∧ outcome r2 = Raise (NameError "Image")
  ∧ path_isdir output_dir (final r2) = true
  ∧ size (files (final r2)) = 0%nat.
Proof. cbv zeta. split_and!; vm_compute; first [reflexivity | discriminate]. Qed.

(** C10 (the code departs from it).  A run of [main] over an output
    directory that holds older, different files under the names of the two
    entries of size 120 ends before either entry is reached: both files
    keep their old content, which differs. *)
Theorem size_120_entries_not_written (pil : PIL) (fe : fontenv pil) :
  let r := main pil module_globals (stale_world fe) in
  outcome r = Raise (NameError "Image")
  ∧ files (final r) !! icon_path "icon-40@3x.png" = Some stale_a
  ∧ files (final r) !! icon_path "icon-60@2x.png" = Some stale_b
  ∧ stale_a ≠ stale_b.
Proof. cbv zeta. split_and!; vm_compute; first [reflexivity | discriminate]. Qed.




(** C6 (the code departs from it).  Two calls [create_icon(40)] in the
    module's namespace, in any two worlds: each ends at line 12 with the
    [NameError] for [Image], so neither yields an image and there are no PNG
    bytes to compare.  With the three imaging names bound, two calls of the
    same body in worlds that differ in their files but not in their fonts
    yield images with the same encoding. *)
Theorem create_icon_twice_no_output (pil : PIL)
    (w1 w2 : world (fontenv pil)) :
  result_map (png_encode pil) (outcome (create_icon pil module_globals 40 w1))
  = Raise (NameError "Image")
  ∧ result_map (png_encode pil)
      (outcome (create_icon pil module_globals 40 w2))
    = Raise (NameError "Image")
  ∧ is_Ok (outcome (create_icon DisplayList.lib pil_globals 40 empty_world))
    = true
  ∧ result_map DisplayList.encode
      (outcome (create_icon DisplayList.lib pil_globals 40 empty_world))
    = result_map DisplayList.encode
        (outcome (create_icon DisplayList.lib pil_globals 40
                    (stale_world ∅))).
Proof.
  split_and!.
  - by rewrite create_icon_module.
  - by rewrite create_icon_module.
  - vm_compute. reflexivity.
  - vm_compute. reflexivity.
Qed.

(** C7, as the specification states it with a tolerance of one pixel,
    fails: the bubble radius [int(20 * scale)] is 0 at size 40 and 20 at
    size 1024, and [0 * 1024 / 40] is 20 pixels away from 20. *)
Lemma scaling_spec_fails : ¬ scaling_spec 20 40 1024.
Proof. intros H. vm_compute in H. apply H. reflexivity. Qed.

(** C7, amended.  For a reference value [k] of the design and sizes
    [s1, s2] from 1 to 2048, the measurements computed in binary64 are the
    exact truncations of [k * s1 / 1024] and [k * s2 / 1024], and the
    measurement at [s2] lies strictly between the measurement at [s1]
    multiplied by [s2/s1], minus one, and the measurement at [s1] plus one,
    multiplied by [s2/s1]: the truncation of up to one pixel at [s1] is
    itself scaled by [s2/s1]. *)
Theorem measure_scaling (k s1 s2 : Z) :
  k ∈ reference_values → 0 < s1 ≤ 2048 → 0 < s2 ≤ 2048 →
  float_measure k s1 = Some (measure k s1)
  ∧ float_measure k s2 = Some (measure k s2)
  ∧ (inject_Z (measure k s1) * (inject_Z s2 / inject_Z s1) - 1
       < inject_Z (measure k s2))%Q
  ∧ (inject_Z (measure k s2)
       < (inject_Z (measure k s1) + 1) * (inject_Z s2 / inject_Z s1))%Q.
Proof.
  intros Hk H1 H2.
  split; [apply float_measure_reference; [done | lia]|].
  split; [apply float_measure_reference; [done | lia]|].
  apply reference_values_bounds in Hk.
  pose proof (measure_bounds k s1 ltac:(lia) ltac:(lia)).
  pose proof (measure_bounds k s2 ltac:(lia) ltac:(lia)).
  set (m1 := measure k s1) in *. set (m2 := measure k s2) in *.
  destruct s1 as [|p|p]; try lia.
  unfold Qlt, Qdiv, Qmult, Qinv, Qminus, Qplus, Qopp, inject_Z. simpl.
  split; nia.
Qed.

Lemma measure_scaling_witness :
  (20 ∈ reference_values ∧ 0 < 40 ≤ 2048 ∧ 0 < 1024 ≤ 2048)
  ∧ float_measure 20 40 = Some (measure 20 40)
  ∧ float_measure 20 1024 = Some (measure 20 1024)
  ∧ (inject_Z (measure 20 40) * (inject_Z 1024 / inject_Z 40) - 1
       < inject_Z (measure 20 1024))%Q
  ∧ (inject_Z (measure 20 1024)
       < (inject_Z (measure 20 40) + 1) * (inject_Z 1024 / inject_Z 40))%Q.
Proof.
  assert (20 ∈ reference_values) as Hk
    by (apply (bool_decide_unpack _); vm_compute; exact I).
  split; [split; [exact Hk | lia]|].
  apply (measure_scaling 20 40 1024 Hk); lia.
Defined.




(** ** Runs with the imaging names bound

    The same bodies, resolved in [pil_globals] and run on the display-list
    instance: every entry is rendered and saved. *)

Example imported_main_writes_nine_files :
  let r := main DisplayList.lib pil_globals empty_world in
  outcome r = Ok ()
  ∧ size (files (final r)) = 9%nat
  ∧ forallb (λ entry, bool_decide (is_Some (files (final r) !! icon_path (snd entry))))
      sizes = true
  ∧ length (stdout (final r)) = 18%nat.
Proof. cbv zeta. split_and!; vm_compute; reflexivity. Qed.

Example imported_main_twice_nine_files :
  let r1 := main DisplayList.lib pil_globals empty_world in
  let r2 := main DisplayList.lib pil_globals (final r1) in
  outcome r2 = Ok ()
  ∧ size (files (final r2)) = 9%nat
  ∧ bool_decide (files (final r2) = files (final r1)) = true.
Proof. cbv zeta. split_and!; vm_compute; reflexivity. Qed.

Example imported_size_120_entries_equal :
  let r := main DisplayList.lib pil_globals (stale_world ∅) in
  files (final r) !! icon_path "icon-40@3x.png"
  = files (final r) !! icon_path "icon-60@2x.png"
  ∧ is_Some (files (final r) !! icon_path "icon-40@3x.png").
Proof.
  cbv zeta. split; [vm_compute; reflexivity|].
  vm_compute. eexists. reflexivity.
Qed.

Example imported_sizes (size : Z) :
  size ∈ map fst sizes →
  result_map (λ d, (DisplayList.width d, DisplayList.height d))
    (outcome (create_icon DisplayList.lib pil_globals size empty_world))
  = Ok (size, size).
Proof.
  intros H. vm_compute in H.
  repeat (apply elem_of_cons in H as [->|H]; [vm_compute; reflexivity|]).
  by apply elem_of_nil in H.
Qed.

(** * Further properties of the code *)

(** ** The geometry of lines 16-77 *)

(** X2.  A measurement never decreases when the size grows, nor when the
    reference value grows, and it is never negative. *)
Theorem measure_monotone (k1 k2 s1 s2 : Z) :
  0 ≤ k1 ≤ k2 → 0 ≤ s1 ≤ s2 →
  0 ≤ measure k1 s1 ≤ measure k2 s2.
Proof.
  intros Hk Hs. rewrite !measure_floor by lia. split.
  - apply Z.div_pos; lia.
  - apply Z.div_le_mono; [lia | nia].
Qed.

Lemma measure_monotone_witness :
  (0 ≤ 20 ≤ 280 ∧ 0 ≤ 40 ≤ 1024) ∧ 0 ≤ measure 20 40 ≤ measure 280 1024.
Proof. split; [lia | apply (measure_monotone 20 280 40 1024); lia]. Defined.

(** X3.  For sizes from 0 to 2048 and reference values [a], [b] of the
    design, an edge placed at [int(a*scale) + int(b*scale)] (the right and
    bottom edges of the bubbles, the tail vertices), the two measurements
    computed in binary64, is never beyond the exact position
    [(a + b) * size / 1024] and less than two pixels short of it. *)
Theorem measure_sum (a b size : Z) :
  a ∈ reference_values → b ∈ reference_values → 0 ≤ size ≤ 2048 →
  ∃ ma mb,
    float_measure a size = Some ma ∧ float_measure b size = Some mb
    ∧ 1024 * (ma + mb) ≤ (a + b) * size < 1024 * (ma + mb + 2).
Proof.
  intros Ha Hb Hs. exists (measure a size), (measure b size).
  split; [by apply float_measure_reference|].
  split; [by apply float_measure_reference|].
  apply reference_values_bounds in Ha, Hb.
  pose proof (measure_bounds a size ltac:(lia) ltac:(lia)).
  pose proof (measure_bounds b size ltac:(lia) ltac:(lia)).
  lia.
Qed.

Lemma measure_sum_witness :
  (544 ∈ reference_values ∧ 280 ∈ reference_values ∧ 0 ≤ 87 ≤ 2048)
  ∧ ∃ ma mb,
      float_measure 544 87 = Some ma ∧ float_measure 280 87 = Some mb
      ∧ 1024 * (ma + mb) ≤ (544 + 280) * 87 < 1024 * (ma + mb + 2).
Proof.
  assert (544 ∈ reference_values) as Ha
    by (apply (bool_decide_unpack _); vm_compute; exact I).
  assert (280 ∈ reference_values) as Hb
    by (apply (bool_decide_unpack _); vm_compute; exact I).
  split; [split_and!; [exact Ha | exact Hb | lia | lia]|].
  apply (measure_sum 544 280 87 Ha Hb); lia.
Defined.

(** X4.  For every size [>= 0] each of the three bubble rectangles is well
    formed (left edge not right of the right edge, top not below bottom)
    and lies inside the canvas. *)
Theorem bubbles_inside_canvas (size : Z) :
  0 ≤ size →
  (0 ≤ bubble1_x size ≤ bubble1_x size + bubble1_w size
   ∧ bubble1_x size + bubble1_w size ≤ size
   ∧ 0 ≤ bubble1_y size ≤ bubble1_y size + bubble1_h size
   ∧ bubble1_y size + bubble1_h size ≤ size)
  ∧ (0 ≤ bubble2_x size ≤ bubble2_x size + bubble2_w size
     ∧ bubble2_x size + bubble2_w size ≤ size
     ∧ 0 ≤ bubble2_y size ≤ bubble2_y size + bubble2_h size
     ∧ bubble2_y size + bubble2_h size ≤ size)
  ∧ (0 ≤ bubble3_x size ≤ bubble3_x size + bubble3_w size
     ∧ bubble3_x size + bubble3_w size ≤ size
     ∧ 0 ≤ bubble3_y size ≤ bubble3_y size + bubble3_h size
     ∧ bubble3_y size + bubble3_h size ≤ size).
Proof.
  intros Hs.
  unfold bubble1_x, bubble1_y, bubble1_w, bubble1_h, bubble2_x, bubble2_y,
    bubble2_w, bubble2_h, bubble3_x, bubble3_y, bubble3_w, bubble3_h.
  pose proof (measure_bounds 200 size ltac:(lia) Hs).
  pose proof (measure_bounds 300 size ltac:(lia) Hs).
  pose proof (measure_bounds 280 size ltac:(lia) Hs).
  pose proof (measure_bounds 544 size ltac:(lia) Hs).
  pose proof (measure_bounds 150 size ltac:(lia) Hs).
  pose proof (measure_bounds 600 size ltac:(lia) Hs).
  lia.
Qed.

Lemma bubbles_inside_canvas_witness :
  0 ≤ 58
  ∧ (0 ≤ bubble1_x 58 ≤ bubble1_x 58 + bubble1_w 58
     ∧ bubble1_x 58 + bubble1_w 58 ≤ 58
     ∧ 0 ≤ bubble1_y 58 ≤ bubble1_y 58 + bubble1_h 58
     ∧ bubble1_y 58 + bubble1_h 58 ≤ 58)
  ∧ (0 ≤ bubble2_x 58 ≤ bubble2_x 58 + bubble2_w 58
     ∧ bubble2_x 58 + bubble2_w 58 ≤ 58
     ∧ 0 ≤ bubble2_y 58 ≤ bubble2_y 58 + bubble2_h 58
     ∧ bubble2_y 58 + bubble2_h 58 ≤ 58)
  ∧ (0 ≤ bubble3_x 58 ≤ bubble3_x 58 + bubble3_w 58
     ∧ bubble3_x 58 + bubble3_w 58 ≤ 58
     ∧ 0 ≤ bubble3_y 58 ≤ bubble3_y 58 + bubble3_h 58
     ∧ bubble3_y 58 + bubble3_h 58 ≤ 58).
Proof. split; [lia | apply (bubbles_inside_canvas 58); lia]. Defined.

(** X5.  For every size [>= 0] every vertex of the three tail triangles
    lies inside the canvas. *)
Theorem tails_inside_canvas (size : Z) :
  0 ≤ size →
  Forall (λ p, 0 ≤ fst p ≤ size ∧ 0 ≤ snd p ≤ size)
    (tail_points size ++ tail2_points size ++ tail3_points size).
Proof.
  intros Hs.
  unfold tail_points, tail2_points, tail3_points, bubble1_x, bubble1_y,
    bubble2_x, bubble2_y, bubble2_w, bubble3_x, bubble3_y.
  pose proof (measure_bounds 200 size ltac:(lia) Hs).
  pose proof (measure_bounds 300 size ltac:(lia) Hs).
  pose proof (measure_bounds 280 size ltac:(lia) Hs).
  pose proof (measure_bounds 544 size ltac:(lia) Hs).
  pose proof (measure_bounds 150 size ltac:(lia) Hs).
  pose proof (measure_bounds 600 size ltac:(lia) Hs).
  pose proof (measure_bounds 100 size ltac:(lia) Hs).
  pose proof (measure_bounds 50 size ltac:(lia) Hs).
  pose proof (measure_bounds 75 size ltac:(lia) Hs).
  pose proof (measure_bounds 125 size ltac:(lia) Hs).
  pose proof (measure_bounds 175 size ltac:(lia) Hs).
  cbn [app]. repeat (apply Forall_cons; split; [cbn [fst snd]; lia|]).
  apply Forall_nil_2.
Qed.

Lemma tails_inside_canvas_witness :
  0 ≤ 87
  ∧ Forall (λ p, 0 ≤ fst p ≤ 87 ∧ 0 ≤ snd p ≤ 87)
      (tail_points 87 ++ tail2_points 87 ++ tail3_points 87).
Proof. split; [lia | apply (tails_inside_canvas 87); lia]. Defined.

(** X6.  For every size [>= 0] the three bubbles do not overlap: the first
    ends at or left of where the second begins, and the third begins at or
    below where the first and the second end. *)
Theorem bubbles_do_not_overlap (size : Z) :
  0 ≤ size →
  bubble1_x size + bubble1_w size ≤ bubble2_x size
  ∧ bubble1_y size + bubble1_h size ≤ bubble3_y size
  ∧ bubble2_y size + bubble2_h size ≤ bubble3_y size.
Proof.
  intros Hs.
  unfold bubble1_x, bubble1_y, bubble1_w, bubble1_h, bubble2_x, bubble2_y,
    bubble2_h, bubble3_y.
  pose proof (measure_bounds 200 size ltac:(lia) Hs).
  pose proof (measure_bounds 300 size ltac:(lia) Hs).
  pose proof (measure_bounds 280 size ltac:(lia) Hs).
  pose proof (measure_bounds 544 size ltac:(lia) Hs).
  pose proof (measure_bounds 600 size ltac:(lia) Hs).
  lia.
Qed.

Lemma bubbles_do_not_overlap_witness :
  0 ≤ 40
  ∧ bubble1_x 40 + bubble1_w 40 ≤ bubble2_x 40
  ∧ bubble1_y 40 + bubble1_h 40 ≤ bubble3_y 40
  ∧ bubble2_y 40 + bubble2_h 40 ≤ bubble3_y 40.
Proof. split; [lia | apply (bubbles_do_not_overlap 40); lia]. Defined.

(** X7.  The tails of the first two bubbles are attached along the bubble's
    edge: their two base vertices lie on the left (right) edge between the
    bubble's top and bottom, the lower one of the first and the upper one
    of the second being corners.  The third tail is not: from size 41 on
    its lower base vertex lies strictly below the bottom edge of the third
    bubble. *)
Theorem tail_bases (size : Z) :
  41 ≤ size →
  (bubble1_y size ≤ bubble1_y size + measure 100 size
   ∧ bubble1_y size + measure 100 size ≤ bubble1_y size + bubble1_h size
   ∧ bubble1_y size + measure 200 size = bubble1_y size + bubble1_h size)
  ∧ (bubble2_y size + measure 100 size ≤ bubble2_y size + bubble2_h size)
  ∧ (bubble3_y size + bubble3_h size < bubble3_y size + measure 175 size).
Proof.
  intros Hs.
  unfold bubble1_h, bubble2_h, bubble3_h.
  pose proof (measure_bounds 100 size ltac:(lia) ltac:(lia)).
  pose proof (measure_bounds 200 size ltac:(lia) ltac:(lia)).
  pose proof (measure_bounds 150 size ltac:(lia) ltac:(lia)).
  pose proof (measure_bounds 175 size ltac:(lia) ltac:(lia)).
  lia.
Qed.

Lemma tail_bases_witness :
  41 ≤ 1024
  ∧ (bubble1_y 1024 ≤ bubble1_y 1024 + measure 100 1024
     ∧ bubble1_y 1024 + measure 100 1024 ≤ bubble1_y 1024 + bubble1_h 1024
     ∧ bubble1_y 1024 + measure 200 1024 = bubble1_y 1024 + bubble1_h 1024)
  ∧ (bubble2_y 1024 + measure 100 1024 ≤ bubble2_y 1024 + bubble2_h 1024)
  ∧ (bubble3_y 1024 + bubble3_h 1024 < bubble3_y 1024 + measure 175 1024).
Proof. split; [lia | apply (tail_bases 1024); lia]. Defined.

(** X8.  The label's font size [int(180 * scale)] is zero exactly for the
    sizes below 6, and the corner radius of the first two bubbles is zero
    exactly for the sizes below 52 (among them the table's size 40). *)
Theorem small_sizes_collapse (size : Z) :
  0 ≤ size →
  (font_size size = 0 ↔ size ≤ 5)
  ∧ (bubble1_r size = 0 ↔ size ≤ 51)
  ∧ (bubble2_r size = 0 ↔ size ≤ 51).
Proof.
  intros Hs. unfold font_size, bubble1_r, bubble2_r.
  pose proof (measure_bounds 180 size ltac:(lia) Hs).
  pose proof (measure_bounds 20 size ltac:(lia) Hs).
  lia.
Qed.

Lemma small_sizes_collapse_witness :
  0 ≤ 40
  ∧ (font_size 40 = 0 ↔ 40 ≤ 5)
  ∧ (bubble1_r 40 = 0 ↔ 40 ≤ 51)
  ∧ (bubble2_r 40 = 0 ↔ 40 ≤ 51).
Proof. split; [lia | apply (small_sizes_collapse 40); lia]. Defined.

(** X9.  The label's anchor is not clamped: its x coordinate is negative
    exactly when the measured label is wider than the canvas.  The label is
    drawn from [text_x + l] to [text_x + r], where [(l, _, r, _)] is the box
    measured at the origin: when the label fits the canvas its right edge
    is at most [size + l], so it can pass the right border by the measured
    box's own left offset [l], and by no more. *)
Theorem text_x_sign (size l t r b : Z) :
  (text_x size (l, t, r, b) < 0 ↔ size < r - l)
  ∧ drawn_bbox size (l, t, r, b)
    = (text_x size (l, t, r, b) + l, text_y size (l, t, r, b) + t,
       text_x size (l, t, r, b) + r, text_y size (l, t, r, b) + b)
  ∧ text_x size (l, t, r, b) + r ≤ Z.max (size + l) r
  ∧ (r - l ≤ size ↔ l ≤ text_x size (l, t, r, b) + l).
Proof.
  unfold drawn_bbox, text_x, text_width.
  pose proof (Z.div_mod (size - (r - l)) 2 ltac:(lia)).
  pose proof (Z.mod_pos_bound (size - (r - l)) 2 ltac:(lia)).
  split_and!; [lia | reflexivity | lia | lia].
Qed.

(** X21.  For every size [>= 0] each corner radius fits its rectangle: twice
    the radius is at most the rectangle's width and height, for the
    background and for the three bubbles. *)
Theorem radii_fit (size : Z) :
  0 ≤ size →
  2 * corner_radius size ≤ size
  ∧ (2 * bubble1_r size ≤ bubble1_w size ∧ 2 * bubble1_r size ≤ bubble1_h size)
  ∧ (2 * bubble2_r size ≤ bubble2_w size ∧ 2 * bubble2_r size ≤ bubble2_h size)
  ∧ (2 * bubble3_r size ≤ bubble3_w size ∧ 2 * bubble3_r size ≤ bubble3_h size).
Proof.
  intros Hs.
  unfold corner_radius, bubble1_r, bubble1_w, bubble1_h, bubble2_r, bubble2_w,
    bubble2_h, bubble3_r, bubble3_w, bubble3_h.
  pose proof (measure_bounds 180 size ltac:(lia) Hs).
  pose proof (measure_bounds 20 size ltac:(lia) Hs).
  pose proof (measure_bounds 280 size ltac:(lia) Hs).
  pose proof (measure_bounds 200 size ltac:(lia) Hs).
  pose proof (measure_bounds 15 size ltac:(lia) Hs).
  pose proof (measure_bounds 150 size ltac:(lia) Hs).
  lia.
Qed.

Lemma radii_fit_witness :
  0 ≤ 180
  ∧ 2 * corner_radius 180 ≤ 180
  ∧ (2 * bubble1_r 180 ≤ bubble1_w 180 ∧ 2 * bubble1_r 180 ≤ bubble1_h 180)
  ∧ (2 * bubble2_r 180 ≤ bubble2_w 180 ∧ 2 * bubble2_r 180 ≤ bubble2_h 180)
  ∧ (2 * bubble3_r 180 ≤ bubble3_w 180 ∧ 2 * bubble3_r 180 ≤ bubble3_h 180).
Proof. split; [lia | apply (radii_fit 180); lia]. Defined.

(** ** What a run may change *)

Section StaysWithin.
Context {F : Type}.
Variables paths newdirs : list string.
Implicit Types w : world F.

Lemma changes_within_refl w : changes_within paths newdirs w w.
Proof. split_and!; auto. Qed.

Lemma changes_within_trans w1 w2 w3 :
  changes_within paths newdirs w1 w2 → changes_within paths newdirs w2 w3 →
  changes_within paths newdirs w1 w3.
Proof.
  intros (D1 & N1 & F1 & S1 & E1) (D2 & N2 & F2 & S2 & E2). split_and!.
  - by etrans.
  - intros d Hd. destruct (N2 d Hd) as [H|H]; auto.
  - intros p Hp. rewrite F2, F1; auto.
  - by etrans.
  - congruence.
Qed.

Lemma stays_within_unchanged {A} (m : M (world F) A) :
  (∀ w, final (m w) = w) → stays_within paths newdirs m.
Proof. intros H w. rewrite H. apply changes_within_refl. Qed.

Lemma stays_within_ret {A} (a : A) : @stays_within F A paths newdirs (ret a).
Proof. by apply stays_within_unchanged. Qed.

Lemma stays_within_raise {A} (e : exn) :
  @stays_within F A paths newdirs (raise e).
Proof. by apply stays_within_unchanged. Qed.

Lemma stays_within_get : @stays_within F _ paths newdirs get.
Proof. by apply stays_within_unchanged. Qed.

Lemma stays_within_bind {A B} (m : M (world F) A) (k : A → M (world F) B) :
  stays_within paths newdirs m → (∀ a, stays_within paths newdirs (k a)) →
  stays_within paths newdirs (bind m k).
Proof.
  intros Hm Hk w. unfold bind. specialize (Hm w).
  destruct (m w) as [[a|e] w']; cbn in *; [|done].
  eapply changes_within_trans; [done | apply Hk].
Qed.

Lemma stays_within_try_except {A} (m : M (world F) A)
    (h : exn → M (world F) A) :
  stays_within paths newdirs m → (∀ e, stays_within paths newdirs (h e)) →
  stays_within paths newdirs (try_except m h).
Proof.
  intros Hm Hh w. unfold try_except. specialize (Hm w).
  destruct (m w) as [[a|e] w']; cbn in *; [done|].
  eapply changes_within_trans; [done | apply Hh].
Qed.

Lemma stays_within_print (line : string) :
  stays_within paths newdirs (@print F line).
Proof.
  intros w. split_and!; cbn; auto. by apply prefix_app_r.
Qed.

Lemma stays_within_mkdir (p : string) :
  p ∈ newdirs → stays_within paths newdirs (@mkdir F p).
Proof.
  intros Hp. apply stays_within_bind; [apply stays_within_get|]. intros w0.
  destruct (path_exists p w0); [apply stays_within_raise|].
  destruct (parent_error p w0); [apply stays_within_raise|].
  intros w. split_and!; cbn; auto.
  - apply union_subseteq_r.
  - intros d [->%elem_of_singleton|Hd]%elem_of_union; auto.
Qed.

Lemma stays_within_write_file (p : string) (data : list Byte.byte) :
  p ∈ paths → stays_within paths newdirs (@write_file F p data).
Proof.
  intros Hp. apply stays_within_bind; [apply stays_within_get|]. intros w0.
  destruct (path_isdir p w0); [apply stays_within_raise|].
  destruct (parent_error p w0); [apply stays_within_raise|].
  intros w. split_and!; cbn; auto.
  intros q Hq. apply lookup_insert_ne. by intros ->.
Qed.
End StaysWithin.

Lemma stays_within_makedirs {F} (paths : list string) :
  stays_within paths ["Assets.xcassets"; output_dir]
    (@makedirs F output_dir true).
Proof.
  unfold makedirs.
  replace (rev (components output_dir))
    with ["AppIcon.appiconset"; "Assets.xcassets"] by (vm_compute; reflexivity).
  cbn [makedirs_rev].
  repeat first
    [ apply stays_within_ret | apply stays_within_raise
    | apply stays_within_get
    | apply stays_within_mkdir; vm_compute; set_solver
    | apply stays_within_bind; [|intros ?]
    | apply stays_within_try_except; [|intros ?]
    | match goal with
      | |- stays_within _ _ (if ?c then _ else _) => destruct c
      end ].
Qed.

Section RunFrame.
Variable pil : PIL.
Variable g : gmap string pyobj.
Implicit Types w : world (fontenv pil).

Lemma stays_within_of_fonts_only {A} (paths newdirs : list string)
    (m : M (world (fontenv pil)) A) :
  fonts_only m → stays_within paths newdirs m.
Proof. intros [H _]. by apply stays_within_unchanged. Qed.

Lemma fonts_only_callable (o : pyobj) (name : string) :
  @fonts_only (fontenv pil) _ (callable o name).
Proof.
  unfold callable. destruct o; try apply fonts_only_raise.
  case_bool_decide; [apply fonts_only_ret | apply fonts_only_raise].
Qed.

Lemma stays_within_process_entry (paths newdirs : list string)
    (entry : Z * string) :
  icon_path (snd entry) ∈ paths →
  stays_within paths newdirs (process_entry pil g entry).
Proof.
  intros Hp. destruct entry as [size filename]. unfold process_entry, save.
  repeat first
    [ apply stays_within_print
    | apply stays_within_write_file; exact Hp
    | apply stays_within_of_fonts_only;
      first [ apply fonts_only_load_global | apply fonts_only_getattr
            | apply fonts_only_callable | apply fonts_only_create_icon ]
    | apply stays_within_bind; [|intros ?] ].
Qed.

Lemma stays_within_for_entries (paths newdirs : list string)
    (entries : list (Z * string)) :
  Forall (λ entry, icon_path (snd entry) ∈ paths) entries →
  stays_within paths newdirs (for_entries pil g entries).
Proof.
  induction 1 as [|entry rest He _ IH]; cbn [for_entries].
  - apply stays_within_ret.
  - apply stays_within_bind; [by apply stays_within_process_entry|].
    intros _. apply IH.
Qed.

Lemma stays_within_main :
  stays_within icon_paths ["Assets.xcassets"; output_dir] (main pil g).
Proof.
  unfold main.
  apply stays_within_bind;
    [apply stays_within_of_fonts_only, fonts_only_load_global|]. intros os.
  apply stays_within_bind;
    [apply stays_within_of_fonts_only, fonts_only_getattr|]. intros _.
  apply stays_within_bind; [apply stays_within_makedirs|]. intros _.
  apply stays_within_for_entries.
  apply Forall_forall. intros entry He. unfold icon_paths.
  apply list_elem_of_fmap. by exists entry.
Qed.
End RunFrame.

(** X10.  Whatever namespace the bodies run in and whatever the imaging
    library does, a run of [main] removes no directory, adds no directory
    other than [Assets.xcassets] and the output directory, only appends to
    the console, and leaves the font environment alone. *)
Theorem main_only_adds (pil : PIL) (g : gmap string pyobj)
    (w : world (fontenv pil)) :
  dirs w ⊆ dirs (final (main pil g w))
  ∧ dirs (final (main pil g w))
    ⊆ dirs w ∪ {[ "Assets.xcassets"; "Assets.xcassets/AppIcon.appiconset" ]}
  ∧ stdout w `prefix_of` stdout (final (main pil g w))
  ∧ fonts (final (main pil g w)) = fonts w.
Proof.
  destruct (stays_within_main pil g w) as (D & N & _ & S & E).
  split_and!; auto.
  intros d Hd. destruct (N d Hd) as [H|H]; [by apply elem_of_union_l|].
  apply elem_of_union_r. revert H. unfold output_dir.
  rewrite !elem_of_cons, elem_of_nil, elem_of_union, !elem_of_singleton.
  tauto.
Qed.

(** X11.  Whatever namespace the bodies run in and whatever the imaging
    library does, a run of [main] leaves every file other than the nine
    icon files of the output directory as it was: same content, or still
    absent. *)
Theorem main_leaves_other_files (pil : PIL) (g : gmap string pyobj)
    (w : world (fontenv pil)) (p : string) :
  p ∉ icon_paths →
  files (final (main pil g w)) !! p = files w !! p.
Proof.
  intros Hp. destruct (stays_within_main pil g w) as (_ & _ & Hf & _).
  by apply Hf.
Qed.

Lemma main_leaves_other_files_witness :
  ("Assets.xcassets/AppIcon.appiconset/Contents.json" ∉ icon_paths)
  ∧ files (final (main DisplayList.lib pil_globals (stale_world ∅)))
      !! "Assets.xcassets/AppIcon.appiconset/Contents.json"
    = files (stale_world (∅ : gset string))
      !! "Assets.xcassets/AppIcon.appiconset/Contents.json".
Proof.
  assert ("Assets.xcassets/AppIcon.appiconset/Contents.json" ∉ icon_paths)
    as H by (apply (bool_decide_unpack _); vm_compute; exact I).
  split; [exact H|].
  apply (main_leaves_other_files DisplayList.lib pil_globals (stale_world ∅)
           "Assets.xcassets/AppIcon.appiconset/Contents.json" H).
Defined.

(** ** The renderer, in any namespace *)

Section AnyNamespace.
Variable pil : PIL.
Variable g : gmap string pyobj.
Implicit Types w : world (fontenv pil).

Lemma fonts_only_run {A} (m : M (world (fontenv pil)) A) w :
  fonts_only m → m w = (outcome (m w), w).
Proof.
  intros [H _]. specialize (H w). unfold outcome, final in *.
  destruct (m w) as [r w']. cbn in *. by subst.
Qed.

Lemma select_font_run (size : Z) w :
  select_font pil g size w
  = (match outcome (ImageFont_truetype pil g Arial (font_size size) w) with
     | Ok f => Ok f
     | Raise _ =>
         match outcome (ImageFont_truetype pil g Helvetica (font_size size) w)
         with
         | Ok f => Ok f
         | Raise _ => outcome (ImageFont_load_default pil g w)
         end
     end, w).
Proof.
  unfold select_font, try_except.
  rewrite (fonts_only_run _ w (fonts_only_truetype pil g Arial _)).
  destruct (outcome (ImageFont_truetype pil g Arial (font_size size) w));
    [done|].
  rewrite (fonts_only_run _ w (fonts_only_truetype pil g Helvetica _)).
  destruct (outcome (ImageFont_truetype pil g Helvetica (font_size size) w));
    [done|].
  apply fonts_only_run, fonts_only_load_default.
Qed.

Lemma load_global_Some_bound (name : string) w (o : pyobj) :
  builtins !! name = None →
  outcome (load_global g name w) = Ok o → g !! name = Some o.
Proof.
  intros Hb. unfold load_global. destruct (g !! name); [by intros [= ->]|].
  by rewrite Hb.
Qed.

Lemma ImageFont_unbound_truetype (path : string) (fs : Z) w :
  g !! "ImageFont" = None →
  ImageFont_truetype pil g path fs w = (Raise (NameError "ImageFont"), w).
Proof.
  intros H. unfold ImageFont_truetype.
  apply bind_Raise, load_global_unbound; [done | apply builtins_no_imaging].
Qed.

Lemma ImageFont_unbound_load_default w :
  g !! "ImageFont" = None →
  ImageFont_load_default pil g w = (Raise (NameError "ImageFont"), w).
Proof.
  intros H. unfold ImageFont_load_default.
  apply bind_Raise, load_global_unbound; [done | apply builtins_no_imaging].
Qed.

Lemma select_font_unbound (size : Z) w :
  g !! "ImageFont" = None →
  select_font pil g size w = (Raise (NameError "ImageFont"), w).
Proof.
  intros H. rewrite select_font_run.
  by rewrite !ImageFont_unbound_truetype, ImageFont_unbound_load_default.
Qed.

Lemma bind_is_Ok {A B} (m : M (world (fontenv pil)) A)
    (k : A → M (world (fontenv pil)) B) w :
  is_Ok (outcome (bind m k w)) = true →
  ∃ a w', m w = (Ok a, w') ∧ is_Ok (outcome (k a w')) = true.
Proof.
  unfold bind. destruct (m w) as [[a|e] w']; [eauto | done].
Qed.
End AnyNamespace.

(** X12.  In any namespace, an exception of the two named font attempts
    never leaves the font block: when the block raises, both named attempts
    have failed and the exception is the one [ImageFont.load_default()]
    raised.  The block changes nothing in the world. *)
Theorem select_font_failure (pil : PIL) (g : gmap string pyobj) (size : Z)
    (w : world (fontenv pil)) (e : exn) :
  outcome (select_font pil g size w) = Raise e →
  is_Ok (outcome (ImageFont_truetype pil g Arial (font_size size) w)) = false
  ∧ is_Ok (outcome (ImageFont_truetype pil g Helvetica (font_size size) w))
    = false
  ∧ outcome (ImageFont_load_default pil g w) = Raise e
  ∧ final (select_font pil g size w) = w.
Proof.
  rewrite select_font_run. unfold outcome at 1, final. cbn [fst snd].
  destruct (outcome (ImageFont_truetype pil g Arial (font_size size) w));
    [done|].
  destruct (outcome (ImageFont_truetype pil g Helvetica (font_size size) w));
    [done|].
  auto.
Qed.

Lemma select_font_failure_witness :
  outcome (select_font DisplayList.lib module_globals 40 empty_world)
  = Raise (NameError "ImageFont")
  ∧ is_Ok (outcome (ImageFont_truetype DisplayList.lib module_globals Arial
                      (font_size 40) empty_world)) = false
  ∧ is_Ok (outcome (ImageFont_truetype DisplayList.lib module_globals
                      Helvetica (font_size 40) empty_world)) = false
  ∧ outcome (ImageFont_load_default DisplayList.lib module_globals empty_world)
    = Raise (NameError "ImageFont")
  ∧ final (select_font DisplayList.lib module_globals 40 empty_world)
    = empty_world.
Proof.
  assert (outcome (select_font DisplayList.lib module_globals 40 empty_world)
          = Raise (NameError "ImageFont")) as H by (vm_compute; reflexivity).
  split; [exact H|].
  apply (select_font_failure DisplayList.lib module_globals 40 empty_world
           (NameError "ImageFont") H).
Defined.


(** X14.  [create_icon] can return an image only in a namespace that binds
    all three of [Image], [ImageDraw] and [ImageFont]: if any of them is
    unbound the call raises, whatever the size and the imaging library. *)
Theorem create_icon_needs_the_three_names (pil : PIL)
    (g : gmap string pyobj) (size : Z) (w : world (fontenv pil)) :
  is_Ok (outcome (create_icon pil g size w)) = true →
  is_Some (g !! "Image") ∧ is_Some (g !! "ImageDraw")
  ∧ is_Some (g !! "ImageFont").
Proof.
  intros H. unfold create_icon in H.
  apply bind_is_Ok in H as (Image & w1 & HImage & H).
  apply bind_is_Ok in H as (_ & w2 & _ & H).
  apply bind_is_Ok in H as (img & w3 & _ & H).
  apply bind_is_Ok in H as (ImageDraw & w4 & HImageDraw & H).
  do 8 (apply bind_is_Ok in H as (? & ? & _ & H)).
  apply bind_is_Ok in H as (f & w5 & Hfont & _).
  split_and!.
  - exists Image. eapply load_global_Some_bound;
      [apply builtins_no_imaging | by rewrite HImage].
  - exists ImageDraw. eapply load_global_Some_bound;
      [apply builtins_no_imaging | by rewrite HImageDraw].
  - destruct (g !! "ImageFont") eqn:E; [by eexists|].
    by rewrite select_font_unbound in Hfont.
Qed.

Lemma create_icon_needs_the_three_names_witness :
  is_Ok (outcome (create_icon DisplayList.lib pil_globals 40 empty_world))
  = true
  ∧ is_Some (pil_globals !! "Image") ∧ is_Some (pil_globals !! "ImageDraw")
  ∧ is_Some (pil_globals !! "ImageFont").
Proof.
  assert (is_Ok (outcome (create_icon DisplayList.lib pil_globals 40
                            empty_world)) = true) as H
    by (vm_compute; reflexivity).
  split; [exact H|].
  apply (create_icon_needs_the_three_names DisplayList.lib pil_globals 40
           empty_world H).
Defined.

(** ** The directory step of [main] *)

Section DirectoryStep.
Context {F : Type}.
Implicit Types w : world F.

Lemma mkdir_run (p : string) w :
  mkdir p w
  = if path_exists p w then (Raise (FileExistsError p), w)
    else match parent_error p w with
         | Some e => (Raise e, w)
         | None => (Ok (), World ({[p]} ∪ dirs w) (files w) (stdout w) (fonts w))
         end.
Proof.
  unfold mkdir, bind, get. destruct (path_exists p w); [done|].
  by destruct (parent_error p w).
Qed.

(** [os.makedirs] on the two-component output directory, case by case. *)
Lemma makedirs_output_dir_run w :
  makedirs output_dir true w
  = let w1 := if path_exists "Assets.xcassets" w then w
              else World ({[ "Assets.xcassets" ]} ∪ dirs w) (files w)
                         (stdout w) (fonts w) in
    if path_exists output_dir w1
    then if path_isdir output_dir w1 then (Ok (), w1)
         else (Raise (FileExistsError output_dir), w1)
    else match parent_error output_dir w1 with
         | Some e => (Raise e, w1)
         | None => (Ok (), World ({[ output_dir ]} ∪ dirs w1) (files w1)
                                 (stdout w1) (fonts w1))
         end.
Proof.
  unfold makedirs.
  replace (rev (components output_dir))
    with ["AppIcon.appiconset"; "Assets.xcassets"] by (vm_compute; reflexivity).
  cbn [makedirs_rev rev app].
  change (join_components ["Assets.xcassets"; "AppIcon.appiconset"])
    with output_dir.
  change (join_components ["Assets.xcassets"]) with "Assets.xcassets".
  change (join_components []) with "".
  change (bool_decide ("Assets.xcassets" = "")) with false.
  change (bool_decide ("AppIcon.appiconset" = "")) with false.
  change (bool_decide ("" = "")) with true.
  cbn [negb andb].
  unfold bind at 1. unfold bind at 1. unfold get at 1. cbn zeta.
  assert (∀ w0, parent_error (F:=F) "Assets.xcassets" w0 = None) as Htop
    by done.
  assert (∀ w1 : world F,
    try_except (mkdir output_dir)
      (λ e, let* w2 := get in
            if is_OSError e && (negb true || negb (path_isdir output_dir w2))
            then raise e
            else if is_OSError e then ret () else raise e) w1
    = if path_exists output_dir w1
      then if path_isdir output_dir w1 then (Ok (), w1)
           else (Raise (FileExistsError output_dir), w1)
      else match parent_error output_dir w1 with
           | Some e => (Raise e, w1)
           | None => (Ok (), World ({[ output_dir ]} ∪ dirs w1) (files w1)
                                   (stdout w1) (fonts w1))
           end) as Hleaf.
  { intros w1. unfold try_except. rewrite mkdir_run.
    destruct (path_exists output_dir w1) eqn:Hex.
    - unfold bind, get. cbn. by destruct (path_isdir output_dir w1).
    - unfold parent_error.
      change (bool_decide (dirname output_dir = "")) with false.
      change (dirname output_dir) with "Assets.xcassets". cbn match.
      assert (path_isdir output_dir w1 = false) as Hnd.
      { unfold path_exists in Hex. apply orb_false_elim in Hex as [Hd _].
        exact Hd. }
      destruct (path_isdir "Assets.xcassets" w1); [done|].
      destruct (bool_decide (is_Some (files w1 !! "Assets.xcassets")));
        unfold bind, get; cbn; by rewrite Hnd. }
  destruct (path_exists "Assets.xcassets" w) eqn:Hhead; cbn [negb].
  - unfold ret. apply Hleaf.
  - assert (∀ h, try_except (mkdir "Assets.xcassets") h w
                 = (Ok (), World ({[ "Assets.xcassets" ]} ∪ dirs w) (files w)
                                 (stdout w) (fonts w))) as Hmk.
    { intros h. unfold try_except. by rewrite mkdir_run, Hhead, Htop. }
    unfold try_except at 1.
    erewrite (bind_Ok _ _ w w) by reflexivity.
    rewrite Hmk. apply Hleaf.
Qed.
End DirectoryStep.

(** X16.  When the output directory's path is taken by something that is
    not a directory, [main] ends with [FileExistsError] for that path
    before anything is announced or rendered: nothing is printed and no
    file changes ([exist_ok=True] forgives an existing directory only). *)
Theorem main_output_dir_is_a_file (pil : PIL) (w : world (fontenv pil)) :
  is_Some (files w !! output_dir) → output_dir ∉ dirs w →
  outcome (main pil module_globals w) = Raise (FileExistsError output_dir)
  ∧ stdout (final (main pil module_globals w)) = stdout w
  ∧ files (final (main pil module_globals w)) = files w.
Proof.
  intros Hfile Hnodir. rewrite main_module, makedirs_output_dir_run.
  cbv zeta.
  set (w1 := if path_exists "Assets.xcassets" w then w else _).
  assert (files w1 = files w ∧ stdout w1 = stdout w
          ∧ path_isdir output_dir w1 = false) as (Hf & Hs & Hd).
  { unfold w1, path_isdir.
    destruct (path_exists "Assets.xcassets" w); cbn [dirs files stdout].
    - split_and!; auto. by apply bool_decide_eq_false.
    - split_and!; auto. apply bool_decide_eq_false.
      rewrite elem_of_union, elem_of_singleton. intros [H|H]; [|done].
      by vm_compute in H. }
  assert (path_exists output_dir w1 = true) as Hex.
  { unfold path_exists. rewrite Hf. apply orb_true_intro. right.
    by apply bool_decide_eq_true. }
  by rewrite Hex, Hd.
Qed.

Lemma main_output_dir_is_a_file_witness :
  let w : world (gset string) :=
    World {[ "Assets.xcassets" ]} {[ output_dir := stale_a ]} [] ∅ in
  (is_Some (files w !! output_dir) ∧ output_dir ∉ dirs w)
  ∧ outcome (main DisplayList.lib module_globals w)
    = Raise (FileExistsError output_dir)
  ∧ stdout (final (main DisplayList.lib module_globals w)) = stdout w
  ∧ files (final (main DisplayList.lib module_globals w)) = files w.
Proof.
  cbv zeta.
  assert (is_Some (files (World (F:=gset string) {[ "Assets.xcassets" ]}
                            {[ output_dir := stale_a ]} [] ∅) !! output_dir))
    as H1 by (vm_compute; eexists; reflexivity).
  assert (output_dir ∉ dirs (World (F:=gset string) {[ "Assets.xcassets" ]}
                               {[ output_dir := stale_a ]} [] ∅))
    as H2 by (apply (bool_decide_unpack _); vm_compute; exact I).
  split; [by split|].
  apply (main_output_dir_is_a_file DisplayList.lib _ H1 H2).
Defined.

(** ** Binary64 against the rationals *)

(** X18.  For every size from 0 to 2048 and every reference value of the
    design, the measurement computed in binary64 the way the script does
    ([int(k * (size / 1024.0))]) is the exact truncation of
    [k * size / 1024]: no rounding error of the floating-point operations
    reaches a pixel coordinate. *)
Theorem measure_binary64_exact (k size : Z) :
  0 ≤ size ≤ 2048 → k ∈ reference_values →
  float_measure k size = Some (measure k size).
Proof.
  intros Hs Hk. rewrite measure_quot.
  pose proof float_measure_table as H.
  rewrite forallb_forall in H.
  assert (In size (seqZ 0 2049)) as Hin
    by (apply list_elem_of_In, elem_of_seqZ; lia).
  specialize (H size Hin). rewrite forallb_forall in H.
  apply list_elem_of_In in Hk. specialize (H k Hk).
  by apply bool_decide_eq_true in H.
Qed.

Lemma measure_binary64_exact_witness :
  (0 ≤ 87 ≤ 2048 ∧ 544 ∈ reference_values)
  ∧ float_measure 544 87 = Some (measure 544 87).
Proof.
  assert (544 ∈ reference_values) as Hk
    by (apply (bool_decide_unpack _); vm_compute; exact I).
  split; [split; [lia | exact Hk]|].
  apply (measure_binary64_exact 544 87); [lia | exact Hk].
Defined.
